(** * SEC financial data extractor: the fact-normalisation core

    A shallow embedding of [sec_data_extractor.py]: the XBRL helpers
    [select_units_prefer_usd], [pick_val], [quarter_increment],
    [quarter_instant] and [total_debt], the panel builder [build_quarterly]
    with its growth columns, and the ratio helper [safe_div].  The notebook
    [google_colab.py] has the same helpers, shorter tag tables, no [try]
    around the work on a ticker, and a [safe_div] that catches every
    exception.

    Conventions of the embedding.
    - A JSON number in a [val] field is a Python [int]: its arithmetic is
      exact, and it is modelled on [Z].  Binary64 rounding of non-integer
      facts is not modelled.
    - A Python [None] (and a key that a record lacks, as [dict.get] reports
      it) is [None] of an [option].
    - Python exceptions are the [Raise] results of the monad [result]; a
      function that cannot raise on the typed data is a plain function.
    - The [us-gaap] JSON object is a [gmap] from tag names to facts; a
      [units] object and a row keep their keys in order and are association
      lists.
    - Quotients computed by pandas or by Python's [/] are exact rationals
      ([Q]), extended with the three special values of a float column. *)

From Stdlib Require Import ZArith QArith String Ascii List Lia.
From Stdlib Require Import DecimalString DecimalZ OrderedTypeEx Sorted.
From stdpp Require Import base option list gmap strings.

#[local] Open Scope Z_scope.

(** ** Python results and exceptions *)

Inductive exn : Type :=
  | TypeError
  | ZeroDivisionError
  | KeyError
  | RequestException.

Inductive result (A : Type) : Type :=
  | Ok (a : A)
  | Raise (e : exn).
Arguments Ok {A} a.
Arguments Raise {A} e.

#[global] Instance result_ret : MRet result := @Ok.
#[global] Instance result_bind : MBind result := λ A B f m,
  match m with
  | Ok a => f a
  | Raise e => Raise e
  end.
#[global] Instance result_fmap : FMap result := λ A B f m,
  match m with
  | Ok a => Ok (f a)
  | Raise e => Raise e
  end.

(** ** Strings as Python sees them *)

(** [str(n)] for an [int]. *)
Definition str_int (n : Z) : string := NilEmpty.string_of_int (Z.to_int n).

(** A JSON scalar found under the key [fy]: a number or a string. *)
Inductive scalar : Type :=
  | JInt (n : Z)
  | JStr (s : string).

(** [str(x.get(k))]: [None] prints as the four letters. *)
Definition py_str (v : option scalar) : string :=
  match v with
  | None => "None"
  | Some (JInt n) => str_int n
  | Some (JStr s) => s
  end.

(** [c.upper()] on one ASCII character, and [s.upper()]. *)
Definition upper_ascii (c : ascii) : ascii :=
  let n := nat_of_ascii c in
  if (97 <=? n)%nat && (n <=? 122)%nat then ascii_of_nat (n - 32) else c.

Fixpoint upper (s : string) : string :=
  match s with
  | EmptyString => EmptyString
  | String c s' => String (upper_ascii c) (upper s')
  end.

(** ** The data model *)

(** One observation of a fact: the keys [fy], [fp], [end] and [val] of the
    JSON record, each of which the record may lack.  When they are there,
    [end] is a string (an ISO date, so that the order of the strings is the
    order of the dates) and [val] a number. *)
Record Observation : Type := mkObs {
  o_fy : option scalar;
  o_fp : option string;
  o_end : option string;
  o_val : option Z
}.

(** A fact: its [units] object, when it has one, maps a unit name to the
    observations reported in that unit, in the order of the document, each
    name once. *)
Record Fact : Type := mkFact {
  units : option (list (string * list Observation))
}.

(** ** [sorted(xs, key=...)]

    Python's sort is stable and compares keys with [<] only.  On a list of
    keys that [<] orders, every stable sort returns the same list; it is
    written here as the insertion sort that puts an element in front of the
    first one that is not smaller. *)
Section Sorted.
Context {A K : Type} (lt : K → K → bool) (key : A → K).

Fixpoint insert_sorted (x : A) (l : list A) : list A :=
  match l with
  | [] => [x]
  | y :: l' =>
      if lt (key y) (key x) then y :: insert_sorted x l' else x :: y :: l'
  end.

Definition sorted (l : list A) : list A := foldr insert_sorted [] l.

End Sorted.

(** ** XBRL helpers *)

(** [units["USD"]] when the key is there. *)
Fixpoint units_lookup (u : string) (us : list (string * list Observation))
  : option (list Observation) :=
  match us with
  | [] => None
  | (name, data) :: us' =>
      if String.eqb name u then Some data else units_lookup u us'
  end.

Definition select_units_prefer_usd (fact : Fact)
  : list Observation * option string :=
  match units fact with
  | None => ([], None)
  | Some us =>
      match units_lookup "USD" us with
      | Some data => (data, Some "USD")
      | None =>
          match us with
          | (unit_name, unit_data) :: _ => (unit_data, Some unit_name)
          | [] => ([], None)
          end
      end
  end.

(** The filter of [pick_val]: [str(x.get("fy")) == str(fy) and x.get("fp") == fp]. *)
Definition matches (fy : Z) (fp : string) (x : Observation) : bool :=
  String.eqb (py_str (o_fy x)) (str_int fy)
  && match o_fp x with
     | Some p => String.eqb p fp
     | None => false
     end.

Definition candidates (arr : list Observation) (fy : Z) (fp : string)
  : list Observation :=
  List.filter (matches fy fp) arr.

(** The sort key [(x.get("end", ""), x.get("val", 0))] and Python's order on
    such pairs: the first components decide unless they are equal. *)
Definition sort_key (x : Observation) : string * Z :=
  (default EmptyString (o_end x), default 0 (o_val x)).

Definition tuple_lt (a b : string * Z) : bool :=
  if String.eqb a.1 b.1 then a.2 <? b.2 else String.ltb a.1 b.1.

Definition pick_val (arr : list Observation) (fy : Z) (fp : string)
  : option Z :=
  match candidates arr fy fp with
  | [] => None
  | c :: cs =>
      let candidates := sorted tuple_lt sort_key (c :: cs) in
      last candidates ≫= o_val
  end.

(** ** Arithmetic on values that may be [None] *)

Definition is_none (v : option Z) : bool :=
  match v with
  | None => true
  | Some _ => false
  end.

Definition not_none (v : option Z) : bool := negb (is_none v).

(** [a - b]: Python raises [TypeError] unless both operands are numbers. *)
Definition py_sub (a b : option Z) : result (option Z) :=
  match a, b with
  | Some x, Some y => Ok (Some (x - y))
  | _, _ => Raise TypeError
  end.

(** [a or b] with a number [b]: [a] when it is truthy, that is neither
    [None] nor [0], and [b] otherwise. *)
Definition py_or (a : option Z) (b : Z) : option Z :=
  match a with
  | Some x => if x =? 0 then Some b else Some x
  | None => Some b
  end.

(** [sum(values)]: Python starts from [0] and adds from the left. *)
Definition py_sum (values : list Z) : Z := foldl Z.add 0 values.

(** ** Tag tables *)

Definition DURATION_TAGS : gmap string (list string) :=
  list_to_map [
    ("revenue", ["RevenueFromContractWithCustomerExcludingAssessedTax";
                 "SalesRevenueNet"; "Revenues"]);
    ("cogs", ["CostOfGoodsAndServicesSold"; "CostOfRevenue"]);
    ("ebit", ["OperatingIncomeLoss";
              "IncomeLossFromContinuingOperationsBeforeIncomeTaxes"]);
    ("net_income", ["NetIncomeLoss"; "ProfitLoss"]);
    ("eps_diluted", ["EarningsPerShareDiluted";
                     "EarningsPerShareBasicAndDiluted"]);
    ("da", ["DepreciationDepletionAndAmortization";
            "DepreciationAndAmortization"]);
    ("tax_expense", ["IncomeTaxExpenseBenefit"]);
    ("cfo", ["NetCashProvidedByUsedInOperatingActivities"]);
    ("cfi", ["NetCashProvidedByUsedInInvestingActivities"]);
    ("cff", ["NetCashProvidedByUsedInFinancingActivities"]);
    ("capex", ["PaymentsToAcquirePropertyPlantAndEquipment";
               "CapitalExpendituresIncurredButNotYetPaid"]);
    ("interest_exp", ["InterestExpense"; "InterestAndDebtExpense"]);
    ("dividends", ["PaymentsOfDividendsCommonStock"; "PaymentsOfDividends"]);
    ("rnd", ["ResearchAndDevelopmentExpense"]);
    ("sga", ["SellingGeneralAndAdministrativeExpense"])
  ].

Definition INSTANT_TAGS : gmap string (list string) :=
  list_to_map [
    ("assets", ["Assets"]);
    ("assets_current", ["AssetsCurrent"]);
    ("liabilities_current", ["LiabilitiesCurrent"]);
    ("equity",
      ["StockholdersEquityIncludingPortionAttributableToNoncontrollingInterest";
       "StockholdersEquity"]);
    ("cash", ["CashAndCashEquivalentsAtCarryingValue"; "Cash"]);
    ("sti", ["MarketableSecuritiesCurrent";
             "AvailableForSaleSecuritiesCurrent"]);
    ("ar", ["AccountsReceivableNetCurrent"; "AccountsReceivableNet"]);
    ("ap", ["AccountsPayableCurrent"; "AccountsPayable"]);
    ("inventory", ["InventoryNet"; "Inventory"]);
    ("debt_lt_nc", ["LongTermDebtNoncurrent"]);
    ("debt_lt_cur", ["LongTermDebtCurrent"]);
    ("debt_st", ["ShortTermBorrowings"]);
    ("ppe", ["PropertyPlantAndEquipmentNet"]);
    ("goodwill", ["Goodwill"]);
    ("intangibles", ["FiniteLivedIntangibleAssetsNet";
                     "IntangibleAssetsNetExcludingGoodwill"]);
    ("retained", ["RetainedEarningsAccumulatedDeficit"]);
    ("deferred_revenue", ["ContractWithCustomerLiabilityCurrent";
                          "DeferredRevenue"]);
    ("treasury_stock", ["TreasuryStockValue"])
  ].

(** ** Tag resolution

    [next((t for t in tag_list if t in usgaap), None)] together with the
    [usgaap[tag]] that follows it: the first listed tag the fact set has,
    and its fact. *)
Fixpoint first_tag (tag_list : list string) (usgaap : gmap string Fact)
  : option (string * Fact) :=
  match tag_list with
  | [] => None
  | t :: ts =>
      match usgaap !! t with
      | Some fact => Some (t, fact)
      | None => first_tag ts usgaap
      end
  end.

(** ** Duration metrics: year-to-date values to quarterly increments *)

(** The dictionary [dict(Q1=q1, Q2=q2, Q3=q3, Q4=q4, FY=fy_val)]. *)
Record Increments : Type := mkInc {
  Q1 : option Z;
  Q2 : option Z;
  Q3 : option Z;
  Q4 : option Z;
  FY : option Z
}.

Definition no_increments : Increments := mkInc None None None None None.

(** [d[q]] on that dictionary. *)
Definition inc_get (d : Increments) (q : string) : result (option Z) :=
  if String.eqb q "Q1" then Ok (Q1 d)
  else if String.eqb q "Q2" then Ok (Q2 d)
  else if String.eqb q "Q3" then Ok (Q3 d)
  else if String.eqb q "Q4" then Ok (Q4 d)
  else if String.eqb q "FY" then Ok (FY d)
  else Raise KeyError.

Definition quarter_increment (usgaap : gmap string Fact)
    (tag_list : list string) (fy : Z) : result Increments :=
  match first_tag tag_list usgaap with
  | None => Ok no_increments
  | Some (tag, fact) =>
      (* [if not tag]: the empty string is falsy too *)
      if String.eqb tag "" then Ok no_increments
      else
        let arr := (select_units_prefer_usd fact).1 in
        let ytd := λ q, pick_val arr fy q in
        let fy_val := pick_val arr fy "FY" in
        let q1 := ytd "Q1" in
        q2 ← (if not_none (ytd "Q2") && not_none (ytd "Q1")
              then py_sub (ytd "Q2") (ytd "Q1")
              else Ok (ytd "Q2"));
        q3 ← (if not_none (ytd "Q3") && not_none (ytd "Q2")
              then py_sub (ytd "Q3") (ytd "Q2")
              else Ok (ytd "Q3"));
        q4 ← (if not_none fy_val && negb (existsb is_none [q1; q2; q3])
              then
                a ← py_sub fy_val (py_or q1 0);
                b ← py_sub a (py_or q2 0);
                py_sub b (py_or q3 0)
              else
                let q4 := pick_val arr fy "Q4" in
                Ok (if is_none q4 && not_none fy_val then fy_val else q4));
        Ok (mkInc q1 q2 q3 q4 fy_val)
  end.

(** ** Instant metrics *)

Definition quarter_instant (usgaap : gmap string Fact)
    (tag_list : list string) (fy : Z) (fq : string) : option Z :=
  match first_tag tag_list usgaap with
  | None => None
  | Some (tag, fact) =>
      if String.eqb tag "" then None
      else
        let arr := (select_units_prefer_usd fact).1 in
        let val := pick_val arr fy fq in
        (* Fallback: Q4 often reported as FY *)
        if is_none val && String.eqb fq "Q4" then pick_val arr fy "FY"
        else val
  end.

Definition total_debt (usgaap : gmap string Fact) (fy : Z) (fq : string)
  : option Z :=
  let lt := quarter_instant usgaap (INSTANT_TAGS !!! "debt_lt_nc") fy fq in
  let cur := quarter_instant usgaap (INSTANT_TAGS !!! "debt_lt_cur") fy fq in
  let st := quarter_instant usgaap (INSTANT_TAGS !!! "debt_st") fy fq in
  let values := omap id [lt; cur; st] in
  match values with
  | [] => None
  | _ => Some (py_sum values)
  end.

(** ** Rows and data frames *)

(** The dictionary [row] of [build_quarterly]: four identifying entries and
    the raw metrics, each a number or [None], in the order they are written. *)
Record Row : Type := mkRow {
  r_ticker : string;
  r_cik : string;
  r_fy : Z;
  r_fq : string;
  r_cols : list (string * option Z)
}.

Fixpoint col_lookup (c : string) (cs : list (string * option Z)) : option Z :=
  match cs with
  | [] => None
  | (k, v) :: cs' => if String.eqb k c then v else col_lookup c cs'
  end.

(** The cell of column [c]; a missing value ([None], NaN) reads [None]. *)
Definition col (r : Row) (c : string) : option Z := col_lookup c (r_cols r).

(** A cell of a float column. *)
Inductive fval : Type :=
  | Fin (q : Q)
  | PosInf
  | NegInf
  | NaN.

(** A row of the data frame once derived columns are added to it. *)
Record PanelRow : Type := mkPanelRow {
  p_row : Row;
  p_derived : list (string * fval)
}.

(** ** The row loop of [build_quarterly]

    The loop appends to the list [rows] and runs under a [try]: what it has
    appended stays when an exception ends the work on a ticker.  [Build] is
    the state-and-exception monad of that loop. *)
Definition Build (A : Type) : Type := list Row → result A * list Row.

#[global] Instance build_ret : MRet Build := λ A a rows, (Ok a, rows).
#[global] Instance build_bind : MBind Build := λ A B f m rows,
  match m rows with
  | (Ok a, rows') => f a rows'
  | (Raise e, rows') => (Raise e, rows')
  end.

Definition lift {A : Type} (r : result A) : Build A := λ rows, (r, rows).

(** [rows.append(row)] *)
Definition append (row : Row) : Build unit := λ rows, (Ok (), rows ++ [row]).

(** [try: body  except Exception: continue] *)
Definition try_except (body : Build unit) : Build unit := λ rows,
  match body rows with
  | (Ok _, rows') => (Ok (), rows')
  | (Raise _, rows') => (Ok (), rows')
  end.

Fixpoint for_each {X : Type} (xs : list X) (body : X → Build unit)
  : Build unit :=
  match xs with
  | [] => mret ()
  | x :: xs' => body x ≫= λ _, for_each xs' body
  end.

(** [d[k]] on a dictionary. *)
Definition getitem {V : Type} (d : gmap string V) (k : string) : result V :=
  match d !! k with
  | Some v => Ok v
  | None => Raise KeyError
  end.

(** [range(start_year, end_year + 1)] *)
Definition year_range (start_year end_year : Z) : list Z :=
  seqZ start_year (end_year + 1 - start_year).

Definition QUARTERS : list string := ["Q1"; "Q2"; "Q3"; "Q4"].

(** [{key: quarter_increment(usgaap, tags, fy) for key, tags in DURATION_TAGS.items()}] *)
Definition duration_data (usgaap : gmap string Fact) (fy : Z)
  : result (gmap string Increments) :=
  list_to_map <$>
    mapM (λ kt : string * list string,
            d ← quarter_increment usgaap kt.2 fy; Ok (kt.1, d))
         (map_to_list DURATION_TAGS).

(** The entries of the dictionary [row] after the four identifying ones. *)
Definition row_cols (usgaap : gmap string Fact)
    (dd : gmap string Increments) (fy : Z) (fq : string) (revenue : option Z)
  : result (list (string * option Z)) :=
  let duration := λ key, d ← getitem dd key; inc_get d fq in
  let instant := λ key, Ok (quarter_instant usgaap (INSTANT_TAGS !!! key) fy fq) in
  mapM (λ kv : string * result (option Z), v ← kv.2; Ok (kv.1, v)) [
    ("revenue", Ok revenue);
    ("cogs", duration "cogs");
    ("ebit", duration "ebit");
    ("net_income", duration "net_income");
    ("eps_diluted", duration "eps_diluted");
    ("da", duration "da");
    ("tax_expense", duration "tax_expense");
    ("cfo", duration "cfo");
    ("cfi", duration "cfi");
    ("cff", duration "cff");
    ("capex", duration "capex");
    ("interest_exp", duration "interest_exp");
    ("dividends", duration "dividends");
    ("rnd", duration "rnd");
    ("sga", duration "sga");
    ("assets", instant "assets");
    ("assets_current", instant "assets_current");
    ("liabilities_current", instant "liabilities_current");
    ("equity", instant "equity");
    ("cash", instant "cash");
    ("sti", instant "sti");
    ("ar", instant "ar");
    ("ap", instant "ap");
    ("inventory", instant "inventory");
    ("ppe", instant "ppe");
    ("goodwill", instant "goodwill");
    ("intangibles", instant "intangibles");
    ("retained", instant "retained");
    ("deferred_revenue", instant "deferred_revenue");
    ("debt", Ok (total_debt usgaap fy fq));
    ("treasury_stock", instant "treasury_stock")
  ].

(** The admission test on a quarter's revenue: the row is skipped when
    [revenue is None or revenue == 0]. *)
Definition revenue_rejected (revenue : option Z) : bool :=
  match revenue with
  | None => true
  | Some v => v =? 0
  end.

(** [usd_only and rev_unit != "USD"] *)
Definition unit_rejected (usd_only : bool) (rev_unit : option string) : bool :=
  usd_only && negb (bool_decide (rev_unit = Some "USD")).

Section Builder.
(** What the program gets from outside: the ticker directory that
    [load_ticker_map()] returned, and [GET(FACTS_URL...)] followed by
    [.json().get("facts", {}).get("us-gaap", {})], which gives the fact
    set of a CIK or raises. *)
Variable ticker_map : gmap string string.
Variable company_facts : string → result (gmap string Fact).

(** The body of [for fq in ["Q1", "Q2", "Q3", "Q4"]]. *)
Definition quarter_body (usgaap : gmap string Fact)
    (rev_unit : option string) (usd_only : bool)
    (ticker cik : string) (fy : Z) (dd : gmap string Increments)
    (fq : string) : Build unit :=
  revenue ← lift (d ← getitem dd "revenue"; inc_get d fq);
  if revenue_rejected revenue then mret ()
  else if unit_rejected usd_only rev_unit then mret ()
  else
    cs ← lift (row_cols usgaap dd fy fq revenue);
    append (mkRow ticker cik fy fq cs).

(** The body of [for fy in range(start_year, end_year + 1)]. *)
Definition year_body (usgaap : gmap string Fact)
    (rev_unit : option string) (usd_only : bool)
    (ticker cik : string) (fy : Z) : Build unit :=
  dd ← lift (duration_data usgaap fy);
  for_each QUARTERS (quarter_body usgaap rev_unit usd_only ticker cik fy dd).

(** The body of [for idx, ticker in enumerate(tickers, 1)]. *)
Definition ticker_body (start_year end_year : Z) (usd_only : bool)
    (ticker : string) : Build unit :=
  match ticker_map !! upper ticker with
  | None => mret ()
  | Some cik =>
      (* [if not cik]: an empty CIK is skipped as well *)
      if String.eqb cik "" then mret ()
      else
        try_except (
          usgaap ← lift (company_facts cik);
          let rev_tag := first_tag (DURATION_TAGS !!! "revenue") usgaap in
          let rev_unit :=
            match rev_tag with
            | Some (tag, fact) =>
                if String.eqb tag "" then None
                else (select_units_prefer_usd fact).2
            | None => None
            end in
          for_each (year_range start_year end_year)
            (year_body usgaap rev_unit usd_only ticker cik))
  end.

(** The list [rows] when the loop over the tickers ends. *)
Definition collect_rows (tickers : list string)
    (start_year end_year : Z) (usd_only : bool) : list Row :=
  (for_each tickers (ticker_body start_year end_year usd_only) []).2.
End Builder.

(** ** The data frame pipeline *)

(** [df.sort_values(["ticker", "fy", "fq"])]: the three keys in turn; rows
    that agree on all three keep their order. *)
Definition row_key (r : Row) : string * Z * string :=
  (r_ticker r, r_fy r, r_fq r).

Definition row_key_lt (a b : string * Z * string) : bool :=
  if String.eqb a.1.1 b.1.1 then
    if a.1.2 =? b.1.2 then String.ltb a.2 b.2 else a.1.2 <? b.1.2
  else String.ltb a.1.1 b.1.1.

Definition sort_values (df : list Row) : list Row :=
  sorted row_key_lt row_key df.

(** [df.groupby("ticker")[c].shift(1)]: for every row the cell of [c] in the
    row before it that has the same ticker, missing when there is none.
    [seen] keeps the last cell read for each ticker. *)
Fixpoint group_shift (c : string) (seen : gmap string (option Z))
    (df : list Row) : list (option Z) :=
  match df with
  | [] => []
  | r :: df' =>
      default None (seen !! r_ticker r)
      :: group_shift c (<[r_ticker r := col r c]> seen) df'
  end.

(** One cell of [pct_change(fill_method=None)], [x / x.shift(1) - 1] in float
    arithmetic: a missing operand gives NaN, a zero divisor an infinity of
    the sign of the dividend, or NaN under a zero dividend. *)
Definition pct_change_cell (cur prev : option Z) : fval :=
  match cur, prev with
  | Some c, Some p =>
      if p =? 0 then
        if 0 <? c then PosInf else if c <? 0 then NegInf else NaN
      else Fin (inject_Z c / inject_Z p - 1)
  | _, _ => NaN
  end.

(** [.replace([float("inf"), float("-inf")], pd.NA)] *)
Definition replace_inf (v : fval) : fval :=
  match v with
  | PosInf | NegInf => NaN
  | _ => v
  end.

(** [.fillna(0)] on a float cell. *)
Definition fillna0 (v : fval) : fval :=
  match v with
  | NaN => Fin 0
  | _ => v
  end.

(** [df.groupby("ticker")[c].pct_change(fill_method=None)
       .replace([float("inf"), float("-inf")], pd.NA).fillna(0)] *)
Definition growth (df : list Row) (c : string) : list fval :=
  zip_with (λ r prev, fillna0 (replace_inf (pct_change_cell (col r c) prev)))
           df (group_shift c ∅ df).

(** [df[name] = values] on rows that carry derived columns. *)
Definition add_column (name : string) (values : list fval)
    (df : list PanelRow) : list PanelRow :=
  zip_with (λ p v, mkPanelRow (p_row p) (p_derived p ++ [(name, v)]))
           df values.

(** [calculate_derived_metrics], reduced to the column that looks at a
    neighbouring row and is kept in the output: [sales_growth].  The ratio
    columns are computed row by row with [safe_div] and are left out. *)
Definition calculate_derived_metrics (df : list Row) : list PanelRow :=
  add_column "sales_growth" (growth df "revenue")
             ((λ r, mkPanelRow r []) <$> df).

(** The mask [(~df["revenue"].isna()) & (df["revenue"] > 0)]. *)
Definition revenue_kept (revenue : option Z) : bool :=
  match revenue with
  | None => false
  | Some v => 0 <? v
  end.

(** [df[cs] = df[cs].fillna(0)] for the columns [cs]. *)
Definition fillna_row (cs : list string) (p : PanelRow) : PanelRow :=
  let fill_raw := λ kv : string * option Z,
    if bool_decide (kv.1 ∈ cs) then (kv.1, Some (default 0 kv.2)) else kv in
  let fill_derived := λ kv : string * fval,
    if bool_decide (kv.1 ∈ cs) then (kv.1, fillna0 kv.2) else kv in
  mkPanelRow
    (mkRow (r_ticker (p_row p)) (r_cik (p_row p)) (r_fy (p_row p))
           (r_fq (p_row p)) (fill_raw <$> r_cols (p_row p)))
    (fill_derived <$> p_derived p).

Section Pipeline.
Variable ticker_map : gmap string string.
Variable company_facts : string → result (gmap string Fact).
(** [df.select_dtypes(include=["float", "int"]).columns.tolist()]: which
    columns pandas typed as numbers.  The rule is pandas' own; any answer
    is allowed for here. *)
Variable select_dtypes : list PanelRow → list string.

Definition build_quarterly (tickers : list string)
    (start_year end_year : Z) (usd_only : bool) : list PanelRow :=
  let rows := collect_rows ticker_map company_facts
                           tickers start_year end_year usd_only in
  match rows with
  | [] => []
  | _ =>
      let df := sort_values rows in
      let df := calculate_derived_metrics df in
      let df := add_column "earning_growth"
                  (growth (p_row <$> df) "net_income") df in
      (* Final data quality check *)
      let df := List.filter (λ p, revenue_kept (col (p_row p) "revenue")) df in
      let numeric_cols := select_dtypes df in
      let numeric_cols_no_rev :=
        List.filter (λ c, negb (String.eqb c "revenue")) numeric_cols in
      fillna_row numeric_cols_no_rev <$> df
  end.
End Pipeline.

(** ** [safe_div]

    Its arguments are Python objects: [None], a number, or something that is
    neither (a string stands for those). *)
Inductive pyval : Type :=
  | PyNone
  | PyNum (q : Q)
  | PyStr (s : string).

(** [a / b]: [TypeError] unless both are numbers, [ZeroDivisionError] on a
    zero divisor. *)
Definition py_truediv (a b : pyval) : result Q :=
  match a, b with
  | PyNum x, PyNum y =>
      if Qeq_bool y 0 then Raise ZeroDivisionError else Ok (x / y)%Q
  | _, _ => Raise TypeError
  end.

(** [b in (None, 0)] *)
Definition in_none_zero (b : pyval) : bool :=
  match b with
  | PyNone => true
  | PyNum y => Qeq_bool y 0
  | PyStr _ => false
  end.

(** [try: body  except (TypeError, ZeroDivisionError): handler] *)
Definition try_catch {A : Type} (body : result A) (handler : A) : result A :=
  match body with
  | Ok a => Ok a
  | Raise TypeError | Raise ZeroDivisionError => Ok handler
  | Raise e => Raise e
  end.

Definition safe_div (a b : pyval) : result Q :=
  try_catch
    (if negb (match a with PyNone => true | _ => false end)
        && negb (in_none_zero b)
     then py_truediv a b
     else Ok 0%Q)
    0%Q.

(** ** Sample fact sets *)

(** An observation as the companyfacts API writes it. *)
Definition obs (fy : Z) (fp period_end : string) (val : Z) : Observation :=
  mkObs (Some (JInt fy)) (Some fp) (Some period_end) (Some val).

Definition usd_fact (arr : list Observation) : Fact :=
  mkFact (Some [("USD", arr)]).

(** A filer with the four cumulative reports of fiscal 2020 for revenue and
    net income, and two of its three debt tags at the first quarter. *)
Definition acme_usgaap : gmap string Fact :=
  list_to_map [
    ("Revenues", usd_fact [
       obs 2020 "Q1" "2020-03-31" 100; obs 2020 "Q2" "2020-06-30" 250;
       obs 2020 "Q3" "2020-09-30" 420; obs 2020 "FY" "2020-12-31" 600]);
    ("NetIncomeLoss", usd_fact [
       obs 2020 "Q1" "2020-03-31" 10; obs 2020 "Q2" "2020-06-30" 22;
       obs 2020 "Q3" "2020-09-30" 30; obs 2020 "FY" "2020-12-31" 50]);
    ("LongTermDebtNoncurrent", usd_fact [obs 2020 "Q1" "2020-03-31" 1000]);
    ("ShortTermBorrowings", usd_fact [obs 2020 "Q1" "2020-03-31" 500])
  ].

(** A filer whose revenue through the second quarter is reported below its
    revenue through the first, and without an annual report. *)
Definition restated_usgaap : gmap string Fact :=
  list_to_map [
    ("Revenues", usd_fact [
       obs 2020 "Q1" "2020-03-31" 100; obs 2020 "Q2" "2020-06-30" 60;
       obs 2020 "Q3" "2020-09-30" 90])
  ].

Definition sample_ticker_map : gmap string string :=
  list_to_map [("ACME", "0000000001"); ("RSTD", "0000000002")].

Definition sample_company_facts (cik : string) : result (gmap string Fact) :=
  if String.eqb cik "0000000001" then Ok acme_usgaap
  else if String.eqb cik "0000000002" then Ok restated_usgaap
  else Raise RequestException.

(** ** Names used in the statements *)

(** The observations [quarter_increment] and [quarter_instant] read a
    metric from (their first three lines): those of the first listed tag the
    fact set has, in the preferred unit; none when no tag resolves. *)
Definition tag_observations (usgaap : gmap string Fact)
    (tag_list : list string) : list Observation :=
  match first_tag tag_list usgaap with
  | None => []
  | Some (tag, fact) =>
      if String.eqb tag "" then [] else (select_units_prefer_usd fact).1
  end.

(** The data frame of [build_quarterly] once both growth columns are in:
    [calculate_derived_metrics(df)] followed by [df["earning_growth"] = ...]. *)
Definition growth_panel (df : list Row) : list PanelRow :=
  let df := calculate_derived_metrics df in
  add_column "earning_growth" (growth (p_row <$> df) "net_income") df.


(** The dictionary [quarter_increment] returns. *)
Definition increments (usgaap : gmap string Fact) (tag_list : list string)
    (fy : Z) : Increments :=
  match quarter_increment usgaap tag_list fy with
  | Ok d => d
  | Raise _ => no_increments
  end.


(** * Properties *)

(** ** The sort *)

Section SortedFacts.
Context {A K : Type} (lt : K → K → bool) (key : A → K).

Hypothesis lt_irrefl : ∀ k, lt k k = false.
Hypothesis lt_asym : ∀ a b, lt a b = true → lt b a = false.

Lemma insert_sorted_perm (x : A) (l : list A) :
  insert_sorted lt key x l ≡ₚ x :: l.
Proof.
  induction l as [|y l IH]; simpl; [done|].
  destruct (lt (key y) (key x)); [|done].
  rewrite IH. apply Permutation_swap.
Qed.

Lemma sorted_perm (l : list A) : sorted lt key l ≡ₚ l.
Proof.
  induction l as [|x l IH]; simpl; [done|].
  rewrite insert_sorted_perm. by rewrite IH.
Qed.

Lemma elem_of_sorted (x : A) (l : list A) : x ∈ sorted lt key l ↔ x ∈ l.
Proof. by rewrite sorted_perm. Qed.

Lemma insert_sorted_not_nil (x : A) (l : list A) :
  insert_sorted lt key x l ≠ [].
Proof. destruct l as [|y l]; simpl; [done|]. by destruct (lt _ _). Qed.


(** When one element is above all the others, it is the last one of the
    sorted list, whatever the order does elsewhere. *)
Section Dominant.
Variable w : A.



End Dominant.
End SortedFacts.


Section SortedLast.
Context {A K : Type} (lt : K → K → bool) (key : A → K).

Hypothesis lt_irrefl : ∀ k, lt k k = false.
Hypothesis lt_asym : ∀ a b, lt a b = true → lt b a = false.



(** With an order that is also negatively transitive (as a total order is),
    the result is ascending, and its last element is a greatest one. *)
Hypothesis lt_negtrans :
  ∀ a b c, lt b a = false → lt c b = false → lt c a = false.




End SortedLast.

(** ** The order of the sort keys *)










(** ** Integers and their decimal strings *)


(** ** [pick_val] *)

Lemma elem_of_candidates (arr : list Observation) (fy : Z) (fp : string)
    (x : Observation) :
  x ∈ candidates arr fy fp ↔
  x ∈ arr ∧ py_str (o_fy x) = str_int fy ∧ o_fp x = Some fp.
Proof.
  unfold candidates. rewrite !list_elem_of_In, filter_In. unfold matches.
  rewrite andb_true_iff, String.eqb_eq.
  destruct (o_fp x) as [p|]; [rewrite String.eqb_eq|]; intuition congruence.
Qed.

Lemma pick_val_last (arr : list Observation) (fy : Z) (fp : string) :
  pick_val arr fy fp =
  last (sorted tuple_lt sort_key (candidates arr fy fp)) ≫= o_val.
Proof. unfold pick_val. by destruct (candidates arr fy fp). Qed.





(** C10.  A [None] from [pick_val] does not mean that nothing matched: when
    candidates remain, the result is the [val] entry of the record that ends
    the sorted list, and that is [None] when the record has no such entry.
    In the array below an observation with a value matches the request, and
    so does a later one without a value; the result is [None]. *)
Theorem pick_val_none_despite_match :
  (∀ arr fy fp,
     candidates arr fy fp ≠ [] →
     ∃ w, last (sorted tuple_lt sort_key (candidates arr fy fp)) = Some w
          ∧ w ∈ arr ∧ matches fy fp w = true
          ∧ pick_val arr fy fp = o_val w)
  ∧ (let arr :=
       [mkObs (Some (JInt 2021)) (Some "FY") (Some "2021-12-31") (Some 500);
        mkObs (Some (JInt 2021)) (Some "FY") (Some "2022-01-01") None] in
     arr ≠ []
     ∧ (∃ x v, x ∈ arr ∧ matches 2021 "FY" x = true ∧ o_val x = Some v)
     ∧ pick_val arr 2021 "FY" = None).
Proof.
  split.
  - intros arr fy fp Hne. rewrite pick_val_last.
    destruct (last _) as [w|] eqn:Hl.
    + exists w. split; [done|].
      apply last_Some_elem_of in Hl. rewrite elem_of_sorted in Hl.
      apply elem_of_candidates in Hl as (Hin & Hfy & Hfp).
      split; [done|]. split; [|done].
      unfold matches. rewrite Hfy, Hfp, !String.eqb_refl. done.
    + apply last_None in Hl. destruct (candidates arr fy fp); [done|].
      simpl in Hl. by apply insert_sorted_not_nil in Hl.
  - split; [done|]. split; [|reflexivity].
    eexists _, 500. split; [left|]. by vm_compute.
Qed.

(** ** [quarter_increment] *)

Lemma py_or_some (a : Z) : py_or (Some a) 0 = Some a.
Proof. unfold py_or. destruct (Z.eqb_spec a 0); congruence. Qed.

(** The increments as a function of the five values read by [pick_val]. *)
Lemma quarter_increment_unfold (usgaap : gmap string Fact)
    (tag_list : list string) (fy : Z) :
  let ytd := pick_val (tag_observations usgaap tag_list) fy in
  let q2 := match ytd "Q2", ytd "Q1" with
            | Some b, Some a => Some (b - a)
            | v, _ => v
            end in
  let q3 := match ytd "Q3", ytd "Q2" with
            | Some c, Some b => Some (c - b)
            | v, _ => v
            end in
  let q4 := match ytd "FY", ytd "Q1", q2, q3 with
            | Some f, Some a, Some b, Some c => Some (f - a - b - c)
            | _, _, _, _ =>
                match ytd "Q4" with
                | Some v => Some v
                | None => ytd "FY"
                end
            end in
  quarter_increment usgaap tag_list fy
  = Ok (mkInc (ytd "Q1") q2 q3 q4 (ytd "FY")).
Proof.
  unfold quarter_increment, tag_observations.
  destruct (first_tag tag_list usgaap) as [[tag fact]|]; [|reflexivity].
  destruct (String.eqb tag ""); [reflexivity|].
  generalize ((select_units_prefer_usd fact).1). intros arr. cbv zeta.
  destruct (pick_val arr fy "Q1") as [y1|],
           (pick_val arr fy "Q2") as [y2|],
           (pick_val arr fy "Q3") as [y3|],
           (pick_val arr fy "FY") as [f|],
           (pick_val arr fy "Q4") as [d|];
    cbn -[py_or]; rewrite ?py_or_some; reflexivity.
Qed.



(** C4.  The fourth increment.  With the annual value [f] and the first
    three increments [a], [b], [c] all present it is [f - a - b - c].
    Otherwise it is the value of the observation labelled Q4 when there is
    one, and the annual value itself (present or not) when there is none. *)
Theorem quarter_increment_q4_policy (usgaap : gmap string Fact)
    (tag_list : list string) (fy : Z) :
  ∃ d,
    quarter_increment usgaap tag_list fy = Ok d
    ∧ FY d = pick_val (tag_observations usgaap tag_list) fy "FY"
    ∧ (∀ f a b c,
         FY d = Some f → Q1 d = Some a → Q2 d = Some b → Q3 d = Some c →
         Q4 d = Some (f - a - b - c))
    ∧ (FY d = None ∨ Q1 d = None ∨ Q2 d = None ∨ Q3 d = None →
       (∀ v, pick_val (tag_observations usgaap tag_list) fy "Q4" = Some v →
             Q4 d = Some v)
       ∧ (pick_val (tag_observations usgaap tag_list) fy "Q4" = None →
          Q4 d = FY d)).
Proof.
  eexists. split; [apply quarter_increment_unfold|]. cbv zeta. simpl.
  generalize (tag_observations usgaap tag_list). intros arr.
  destruct (pick_val arr fy "Q1") as [y1|],
           (pick_val arr fy "Q2") as [y2|],
           (pick_val arr fy "Q3") as [y3|],
           (pick_val arr fy "FY") as [f|],
           (pick_val arr fy "Q4") as [v4|];
    (split; [reflexivity|]);
    (split; [by intros; simplify_eq/=|]);
    intros Hnone; split; intros;
    destruct Hnone as [?|[?|[?|?]]]; by simplify_eq/=.
Qed.

(** With the four reports of the sample filer, the fourth quarter is what
    the year leaves after the first three. *)
Lemma quarter_increment_q4_policy_witness :
  ∃ d, quarter_increment acme_usgaap (DURATION_TAGS !!! "revenue") 2020 = Ok d
       ∧ Q4 d = Some (600 - 100 - 150 - 170).
Proof.
  destruct (quarter_increment_q4_policy acme_usgaap
              (DURATION_TAGS !!! "revenue") 2020)
    as (d & Hd & _ & Hsub & _).
  exists d. split; [exact Hd|].
  assert (d = mkInc (Some 100) (Some 150) (Some 170) (Some 180) (Some 600))
    as -> by (vm_compute in Hd; congruence).
  by apply Hsub.
Defined.

(** ** The row loop never raises, and admits on revenue alone *)

Lemma quarter_increment_ok (usgaap : gmap string Fact)
    (tag_list : list string) (fy : Z) :
  quarter_increment usgaap tag_list fy = Ok (increments usgaap tag_list fy).
Proof. unfold increments. by rewrite quarter_increment_unfold. Qed.

Lemma mapM_ok {A B : Type} (f : A → result B) (h : A → B) (l : list A) :
  (∀ x, x ∈ l → f x = Ok (h x)) → mapM f l = Ok (h <$> l).
Proof.
  induction l as [|x l IH]; intros Hf; simpl; [done|].
  rewrite Hf by (by left). simpl.
  rewrite IH by (intros y Hy; apply Hf; by right). done.
Qed.

Lemma mapM_is_ok {A B : Type} (f : A → result B) (l : list A) :
  Forall (λ x, ∃ y, f x = Ok y) l → ∃ ys, mapM f l = Ok ys.
Proof.
  induction 1 as [|x l [y Hy] _ [ys Hys]]; simpl; [by eexists|].
  rewrite Hy. simpl. rewrite Hys. by eexists.
Qed.

Lemma mapM_cons_ok {A B : Type} (f : A → result B) (x : A) (l : list A)
    (y : B) (ys : list B) :
  f x = Ok y → mapM f l = Ok ys → mapM f (x :: l) = Ok (y :: ys).
Proof. intros Hx Hl. simpl. rewrite Hx. simpl. by rewrite Hl. Qed.

Lemma duration_data_ok (usgaap : gmap string Fact) (fy : Z) :
  duration_data usgaap fy
  = Ok ((λ tags, increments usgaap tags fy) <$> DURATION_TAGS).
Proof.
  unfold duration_data.
  rewrite (mapM_ok _ (prod_map id (λ tags, increments usgaap tags fy))).
  - simpl. by rewrite list_to_map_fmap, list_to_map_to_list.
  - intros [k tags] _. simpl. by rewrite quarter_increment_ok.
Qed.

Lemma inc_get_quarter (d : Increments) (fq : string) :
  fq ∈ QUARTERS → ∃ v, inc_get d fq = Ok v.
Proof.
  unfold QUARTERS. rewrite !elem_of_cons, elem_of_nil.
  intros [->|[->|[->|[->|[]]]]]; by eexists.
Qed.

Section RowLoop.
Variables (usgaap : gmap string Fact) (fy : Z) (fq : string).
Hypothesis fq_quarter : fq ∈ QUARTERS.

Let dd : gmap string Increments :=
  (λ tags, increments usgaap tags fy) <$> DURATION_TAGS.

Lemma duration_cell_ok (key : string) :
  is_Some (DURATION_TAGS !! key) →
  ∃ v, (getitem dd key ≫= λ d, inc_get d fq) = Ok v.
Proof.
  intros [tags Htags]. unfold getitem, dd. rewrite lookup_fmap, Htags.
  simpl. by apply inc_get_quarter.
Qed.

Lemma row_cols_ok (revenue : option Z) :
  ∃ rest, row_cols usgaap dd fy fq revenue = Ok (("revenue", revenue) :: rest).
Proof.
  unfold row_cols. cbv zeta.
  match goal with
  | |- ∃ rest, mapM ?f (?x :: ?l) = _ =>
      destruct (mapM_is_ok f l) as [ys Hys]
  end.
  - repeat first [apply Forall_nil_2 | apply Forall_cons_2];
      first [ by eexists; reflexivity
            | match goal with
              | |- context [getitem dd ?k] =>
                  destruct (duration_cell_ok k) as [v Hv];
                  [vm_compute; by eexists | cbv beta; cbn [fst snd]; rewrite Hv; by eexists]
              end ].
  - exists ys. by apply mapM_cons_ok.
Qed.

Lemma getitem_revenue :
  getitem dd "revenue"
  = Ok (increments usgaap (DURATION_TAGS !!! "revenue") fy).
Proof.
  assert (DURATION_TAGS !! "revenue" = Some (DURATION_TAGS !!! "revenue"))
    as Htags by (by vm_compute).
  unfold getitem, dd. by rewrite lookup_fmap, Htags.
Qed.

Lemma build_bind_lift {A B : Type} (r : result A) (f : A → Build B)
    (rows : list Row) :
  (lift r ≫= f) rows
  = match r with
    | Ok a => f a rows
    | Raise e => (Raise e, rows)
    end.
Proof. by destruct r. Qed.

(** One turn of the loop over the quarters ends normally.  It appends the
    row of the quarter when the revenue of the quarter passes the admission
    test and the unit test, whatever the other metrics are, and nothing
    otherwise. *)
Lemma quarter_body_spec (rev_unit : option string) (usd_only : bool)
    (ticker cik : string) (rows : list Row) :
  ∃ rev new,
    inc_get (increments usgaap (DURATION_TAGS !!! "revenue") fy) fq = Ok rev
    ∧ quarter_body usgaap rev_unit usd_only ticker cik fy dd fq rows
      = (Ok (), rows ++ new)
    ∧ Forall (λ r, revenue_rejected (col r "revenue") = false) new
    ∧ (revenue_rejected rev || unit_rejected usd_only rev_unit = true →
       new = [])
    ∧ (revenue_rejected rev || unit_rejected usd_only rev_unit = false →
       ∃ cs, new = [mkRow ticker cik fy fq (("revenue", rev) :: cs)]).
Proof.
  destruct (inc_get_quarter
              (increments usgaap (DURATION_TAGS !!! "revenue") fy) fq
              fq_quarter) as [rev Hrev].
  exists rev. unfold quarter_body.
  rewrite build_bind_lift, getitem_revenue.
  change (Ok ?a ≫= ?f) with (f a). cbv beta. rewrite Hrev.
  destruct (revenue_rejected rev) eqn:Hrej.
  { exists []. rewrite app_nil_r. by repeat split. }
  destruct (unit_rejected usd_only rev_unit) eqn:Hunit.
  { exists []. rewrite app_nil_r. by repeat split. }
  rewrite build_bind_lift.
  destruct (row_cols_ok rev) as [cs Hcs]. rewrite Hcs.
  exists [mkRow ticker cik fy fq (("revenue", rev) :: cs)].
  split; [done|]. split; [done|]. split.
  - constructor; [|constructor]. unfold col. by simpl.
  - split; [done|]. intros _. by exists cs.
Qed.
End RowLoop.

Lemma for_each_spec {X : Type} (P : Row → Prop) (xs : list X)
    (body : X → Build unit) :
  (∀ x, x ∈ xs → ∀ rows,
     ∃ new, body x rows = (Ok (), rows ++ new) ∧ Forall P new) →
  ∀ rows,
    ∃ new, for_each xs body rows = (Ok (), rows ++ new) ∧ Forall P new.
Proof.
  induction xs as [|x xs IH]; intros Hbody rows.
  - exists []. by rewrite app_nil_r.
  - destruct (Hbody x (list_elem_of_here _ _) rows) as (new1 & H1 & HP1).
    destruct (IH (λ y Hy, Hbody y (list_elem_of_further _ _ _ Hy))
                 (rows ++ new1)) as (new2 & H2 & HP2).
    exists (new1 ++ new2). split; [|by apply Forall_app].
    simpl. unfold mbind, build_bind. rewrite H1, H2. by rewrite app_assoc.
Qed.

(** The loop over the quarters of a year ends normally. *)
Lemma year_body_spec (usgaap : gmap string Fact) (rev_unit : option string)
    (usd_only : bool) (ticker cik : string) (fy : Z) (rows : list Row) :
  ∃ new,
    year_body usgaap rev_unit usd_only ticker cik fy rows
    = (Ok (), rows ++ new)
    ∧ Forall (λ r, revenue_rejected (col r "revenue") = false) new.
Proof.
  unfold year_body. rewrite build_bind_lift, duration_data_ok.
  apply for_each_spec. intros fq Hfq rows'.
  destruct (quarter_body_spec usgaap fy fq Hfq rev_unit usd_only ticker cik
              rows') as (rev & new & _ & Hrun & Hadm & _).
  by exists new.
Qed.

Lemma ticker_body_spec (ticker_map : gmap string string)
    (company_facts : string → result (gmap string Fact))
    (start_year end_year : Z) (usd_only : bool) (ticker : string)
    (rows : list Row) :
  ∃ new,
    ticker_body ticker_map company_facts start_year end_year usd_only
                ticker rows
    = (Ok (), rows ++ new)
    ∧ Forall (λ r, revenue_rejected (col r "revenue") = false) new.
Proof.
  unfold ticker_body.
  destruct (ticker_map !! upper ticker) as [cik|];
    [|exists []; by rewrite app_nil_r].
  destruct (String.eqb cik ""); [exists []; by rewrite app_nil_r|].
  unfold try_except. rewrite build_bind_lift.
  destruct (company_facts cik) as [usgaap|e];
    [|exists []; by rewrite app_nil_r].
  match goal with
  | |- context [for_each ?xs ?body rows] =>
      destruct (for_each_spec
                  (λ r, revenue_rejected (col r "revenue") = false)
                  xs body) with (rows := rows) as (new & Hrun & Hadm)
  end.
  - intros fy _ rows'. apply year_body_spec.
  - exists new. by rewrite Hrun.
Qed.

(** Every row the loop collects passed the admission test: its revenue is a
    number other than zero. *)
Lemma collect_rows_admitted (ticker_map : gmap string string)
    (company_facts : string → result (gmap string Fact))
    (tickers : list string) (start_year end_year : Z) (usd_only : bool)
    (r : Row) :
  r ∈ collect_rows ticker_map company_facts tickers start_year end_year
                   usd_only →
  ∃ v, col r "revenue" = Some v ∧ v ≠ 0.
Proof.
  unfold collect_rows.
  destruct (for_each_spec (λ r, revenue_rejected (col r "revenue") = false)
              tickers
              (ticker_body ticker_map company_facts start_year end_year
                           usd_only)) with (rows := @nil Row)
    as (new & Hrun & Hadm).
  - intros ticker _ rows. apply ticker_body_spec.
  - rewrite Hrun. simpl. intros Hr.
    rewrite Forall_forall in Hadm. specialize (Hadm r Hr).
    unfold revenue_rejected in Hadm.
    destruct (col r "revenue") as [v|]; [|done].
    exists v. split; [done|]. by apply Z.eqb_neq.
Qed.

(** C8.  The call always returns its dictionary.  The second increment is
    the difference of the values to date when both are read, and otherwise
    the value through the second quarter as it is, a number or [None]; the
    third increment follows the same rule one quarter later.  No exception
    leaves the loop over the quarters of the year, and each quarter gets its
    row on the revenue test and the unit test alone: with both passed the
    row is appended, whatever else is missing. *)
Theorem quarter_increment_pass_through (usgaap : gmap string Fact)
    (tag_list : list string) (fy : Z) :
  ∃ d,
    quarter_increment usgaap tag_list fy = Ok d
    ∧ Q1 d = pick_val (tag_observations usgaap tag_list) fy "Q1"
    ∧ (∀ a b,
         pick_val (tag_observations usgaap tag_list) fy "Q1" = Some a →
         pick_val (tag_observations usgaap tag_list) fy "Q2" = Some b →
         Q2 d = Some (b - a))
    ∧ (pick_val (tag_observations usgaap tag_list) fy "Q1" = None
       ∨ pick_val (tag_observations usgaap tag_list) fy "Q2" = None →
       Q2 d = pick_val (tag_observations usgaap tag_list) fy "Q2")
    ∧ (∀ b c,
         pick_val (tag_observations usgaap tag_list) fy "Q2" = Some b →
         pick_val (tag_observations usgaap tag_list) fy "Q3" = Some c →
         Q3 d = Some (c - b))
    ∧ (pick_val (tag_observations usgaap tag_list) fy "Q2" = None
       ∨ pick_val (tag_observations usgaap tag_list) fy "Q3" = None →
       Q3 d = pick_val (tag_observations usgaap tag_list) fy "Q3")
    ∧ (∀ rev_unit usd_only ticker cik rows,
         ∃ new, year_body usgaap rev_unit usd_only ticker cik fy rows
                = (Ok (), rows ++ new))
    ∧ (∀ fq rev_unit usd_only ticker cik rows,
         fq ∈ QUARTERS →
         ∃ rev new,
           inc_get (increments usgaap (DURATION_TAGS !!! "revenue") fy) fq
           = Ok rev
           ∧ quarter_body usgaap rev_unit usd_only ticker cik fy
               ((λ tags, increments usgaap tags fy) <$> DURATION_TAGS)
               fq rows
             = (Ok (), rows ++ new)
           ∧ (revenue_rejected rev || unit_rejected usd_only rev_unit = false →
              ∃ cs, new = [mkRow ticker cik fy fq (("revenue", rev) :: cs)])).
Proof.
  eexists. split; [apply quarter_increment_unfold|]. cbv zeta.
  cbn [Q1 Q2 Q3].
  split; [|split; [|split; [|split; [|split; [|split]]]]].
  1-5: destruct (pick_val (tag_observations usgaap tag_list) fy "Q1") as [y1|],
           (pick_val (tag_observations usgaap tag_list) fy "Q2") as [y2|],
           (pick_val (tag_observations usgaap tag_list) fy "Q3") as [y3|];
    intros; try congruence;
    repeat match goal with H : _ ∨ _ |- _ => destruct H end; congruence.
  - intros rev_unit usd_only ticker cik rows.
    destruct (year_body_spec usgaap rev_unit usd_only ticker cik fy rows)
      as (new & Hrun & _).
    by exists new.
  - intros fq rev_unit usd_only ticker cik rows Hfq.
    destruct (quarter_body_spec usgaap fy fq Hfq rev_unit usd_only ticker
                cik rows) as (rev & new & Hrev & Hrun & _ & _ & Hrow).
    by exists rev, new.
Qed.

(** A year of which only the value through the second quarter is reported:
    the second increment is that value, the others are missing. *)
Lemma quarter_increment_pass_through_witness :
  ∃ d, quarter_increment
         {[ "Revenues" := usd_fact [obs 2020 "Q2" "2020-06-30" 250] ]}
         (DURATION_TAGS !!! "revenue") 2020 = Ok d
       ∧ Q2 d = Some 250.
Proof.
  destruct (quarter_increment_pass_through
              {[ "Revenues" := usd_fact [obs 2020 "Q2" "2020-06-30" 250] ]}
              (DURATION_TAGS !!! "revenue") 2020)
    as (d & Hd & _ & _ & Hpass & _).
  exists d. split; [exact Hd|].
  rewrite Hpass; [by vm_compute | left; by vm_compute].
Defined.

(** ** [total_debt] *)

(** C7.  With [lt], [cur] and [st] the three components as
    [quarter_instant] resolves them, [total_debt] is [None] exactly when all
    three are [None]; otherwise it is their sum, a [None] counting for [0].
    In the sample fact set the components of the first quarter of 2020 are
    1000, [None] and 500, and the total is 1500. *)
Theorem total_debt_sum (usgaap : gmap string Fact) (fy : Z) (fq : string) :
  let lt := quarter_instant usgaap (INSTANT_TAGS !!! "debt_lt_nc") fy fq in
  let cur := quarter_instant usgaap (INSTANT_TAGS !!! "debt_lt_cur") fy fq in
  let st := quarter_instant usgaap (INSTANT_TAGS !!! "debt_st") fy fq in
  (total_debt usgaap fy fq = None ↔ lt = None ∧ cur = None ∧ st = None)
  ∧ (total_debt usgaap fy fq ≠ None →
     total_debt usgaap fy fq
     = Some (default 0 lt + default 0 cur + default 0 st))
  ∧ (quarter_instant acme_usgaap (INSTANT_TAGS !!! "debt_lt_nc") 2020 "Q1"
     = Some 1000
     ∧ quarter_instant acme_usgaap (INSTANT_TAGS !!! "debt_lt_cur") 2020 "Q1"
       = None
     ∧ quarter_instant acme_usgaap (INSTANT_TAGS !!! "debt_st") 2020 "Q1"
       = Some 500
     ∧ total_debt acme_usgaap 2020 "Q1" = Some 1500
     ∧ total_debt acme_usgaap 2020 "Q2" = None).
Proof.
  intros lt cur st. unfold total_debt. fold lt cur st.
  split; [|split].
  - destruct lt, cur, st; simpl; intuition congruence.
  - destruct lt as [a|], cur as [b|], st as [c|]; simpl; try done;
      intros _; unfold py_sum; simpl; f_equal; lia.
  - by vm_compute.
Qed.

(** ** [safe_div] *)

(** C5.  [safe_div] returns a number for every pair of arguments, numbers or
    not.  It returns [0] when the numerator is [None] and when the
    denominator is [None] or equal to [0], and the quotient when both are
    numbers and the denominator is not [0]. *)
Theorem safe_div_total (a b : pyval) :
  (∃ q, safe_div a b = Ok q)
  ∧ (a = PyNone ∨ b = PyNone ∨ (∃ y, b = PyNum y ∧ (y == 0)%Q) →
     safe_div a b = Ok 0%Q)
  ∧ (∀ x y, a = PyNum x → b = PyNum y → ¬ (y == 0)%Q →
     safe_div a b = Ok (x / y)%Q).
Proof.
  split; [|split].
  - unfold safe_div, py_truediv, in_none_zero.
    destruct a as [|x|s], b as [|y|t]; simpl; eauto;
      destruct (Qeq_bool y 0); simpl; eauto.
  - intros [->|[->|(y & -> & Hy)]].
    + reflexivity.
    + by destruct a.
    + apply Qeq_bool_iff in Hy. unfold safe_div, in_none_zero.
      rewrite Hy. by destruct a.
  - intros x y -> -> Hy.
    assert (Qeq_bool y 0 = false) as Hb.
    { apply not_true_is_false. by rewrite Qeq_bool_iff. }
    unfold safe_div, py_truediv, in_none_zero. simpl. by rewrite Hb.
Qed.

(** A missing numerator, a zero denominator, and one quarter. *)
Lemma safe_div_total_witness :
  safe_div PyNone (PyNum 3) = Ok 0%Q
  ∧ safe_div (PyNum 10) (PyNum 0) = Ok 0%Q
  ∧ safe_div (PyNum 1) (PyNum 4) = Ok (1 / 4)%Q.
Proof.
  split; [|split].
  - apply (proj1 (proj2 (safe_div_total PyNone (PyNum 3)))). by left.
  - apply (proj1 (proj2 (safe_div_total (PyNum 10) (PyNum 0)))).
    right. right. by exists 0%Q.
  - apply (proj2 (proj2 (safe_div_total (PyNum 1) (PyNum 4))) 1%Q 4%Q);
      [done | done | by intros H].
Defined.

(** ** The growth columns *)

Section Shift.
Variable c : string.






End Shift.





(** ** The returned panel *)

Lemma fillna_row_revenue (cs : list string) (p : PanelRow) :
  "revenue" ∉ cs →
  col (p_row (fillna_row cs p)) "revenue" = col (p_row p) "revenue".
Proof.
  intros Hcs. unfold col, fillna_row. simpl.
  induction (r_cols (p_row p)) as [|[k v] cols IH]; simpl; [done|].
  destruct (decide (k ∈ cs)) as [Hk|Hk].
  - rewrite bool_decide_eq_true_2 by done. simpl.
    destruct (String.eqb_spec k "revenue") as [->|_]; [done | apply IH].
  - rewrite bool_decide_eq_false_2 by done. simpl.
    destruct (String.eqb k "revenue"); [done | apply IH].
Qed.

Lemma revenue_not_numeric_no_rev (numeric_cols : list string) :
  "revenue" ∉ List.filter (λ c, negb (String.eqb c "revenue")) numeric_cols.
Proof.
  rewrite list_elem_of_In, filter_In. intros [_ H].
  by rewrite String.eqb_refl in H.
Qed.

(** [build_quarterly] as one expression; the early return on an empty frame
    gives what the pipeline gives on it. *)
Lemma build_quarterly_unfold (ticker_map : gmap string string)
    (company_facts : string → result (gmap string Fact))
    (select_dtypes : list PanelRow → list string)
    (tickers : list string) (start_year end_year : Z) (usd_only : bool) :
  let rows := collect_rows ticker_map company_facts
                           tickers start_year end_year usd_only in
  let df := List.filter (λ p, revenue_kept (col (p_row p) "revenue"))
                        (growth_panel (sort_values rows)) in
  build_quarterly ticker_map company_facts select_dtypes
                  tickers start_year end_year usd_only
  = fillna_row (List.filter (λ c, negb (String.eqb c "revenue"))
                            (select_dtypes df)) <$> df.
Proof.
  unfold build_quarterly. cbv zeta.
  by destruct (collect_rows _ _ _ _ _ _).
Qed.

(** C1.  Every row of the panel [build_quarterly] returns has a revenue, and
    it is greater than zero. *)
Theorem build_quarterly_revenue_positive (ticker_map : gmap string string)
    (company_facts : string → result (gmap string Fact))
    (select_dtypes : list PanelRow → list string)
    (tickers : list string) (start_year end_year : Z) (usd_only : bool)
    (p : PanelRow) :
  p ∈ build_quarterly ticker_map company_facts select_dtypes
                      tickers start_year end_year usd_only →
  ∃ v, col (p_row p) "revenue" = Some v ∧ 0 < v.
Proof.
  rewrite build_quarterly_unfold. cbv zeta.
  intros Hp. apply list_elem_of_fmap in Hp as (q & -> & Hq).
  rewrite fillna_row_revenue by apply revenue_not_numeric_no_rev.
  apply list_elem_of_In, filter_In in Hq as [_ Hkept].
  destruct (col (p_row q) "revenue") as [v|]; [|done].
  exists v. split; [done|]. by apply Z.ltb_lt.
Qed.

(** The panel of the sample filer has a row, and its revenue is positive. *)
Lemma build_quarterly_revenue_positive_witness :
  ∃ p, head (build_quarterly sample_ticker_map sample_company_facts
               (λ _, ["cogs"; "revenue"]) ["acme"] 2019 2021 true) = Some p
       ∧ ∃ v, col (p_row p) "revenue" = Some v ∧ 0 < v.
Proof.
  eexists. split; [vm_compute; reflexivity|].
  eapply (build_quarterly_revenue_positive sample_ticker_map
            sample_company_facts (λ _, ["cogs"; "revenue"])
            ["acme"] 2019 2021 true).
  apply list_elem_of_In. vm_compute. left. reflexivity.
Defined.

(** ** The admission test and the final filter *)

(** The two tests on a revenue disagree on the negative numbers, and only
    there. *)
Lemma admitted_then_dropped (revenue : option Z) :
  revenue_rejected revenue = false ∧ revenue_kept revenue = false
  ↔ ∃ v, revenue = Some v ∧ v < 0.
Proof.
  unfold revenue_rejected, revenue_kept. destruct revenue as [v|].
  - rewrite Z.eqb_neq, Z.ltb_ge. split.
    + intros [? ?]. exists v. split; [done | lia].
    + intros (? & [= <-] & ?). lia.
  - split; [by intros [? _] | by intros (? & ? & _)].
Qed.

(** C9.  The final filter does remove rows that the admission test let in.
    The rows the loop collects are those whose revenue is a number other
    than zero.  For the filer whose revenue to date goes from 100 to 60 and then 90, the
    loop admits the rows of the three quarters, the second with a revenue of
    -40 (present and not zero); the returned panel keeps the first and the
    third only.  The two tests disagree on the negative revenues, and only
    on them. *)
Theorem final_filter_drops_admitted_row
    (select_dtypes : list PanelRow → list string) :
  (∀ ticker_map company_facts tickers start_year end_year usd_only r,
     r ∈ collect_rows ticker_map company_facts tickers start_year end_year
                      usd_only →
     ∃ v, col r "revenue" = Some v ∧ v ≠ 0)
  ∧ (λ r, (r_fq r, col r "revenue")) <$>
    collect_rows sample_ticker_map sample_company_facts
                 ["RSTD"] 2020 2020 true
  = [("Q1", Some 100); ("Q2", Some (-40)); ("Q3", Some 30)]
  ∧ (λ p, (r_fq (p_row p), col (p_row p) "revenue")) <$>
      build_quarterly sample_ticker_map sample_company_facts select_dtypes
                      ["RSTD"] 2020 2020 true
    = [("Q1", Some 100); ("Q3", Some 30)]
  ∧ revenue_rejected (Some (-40)) = false
  ∧ revenue_kept (Some (-40)) = false
  ∧ (∀ revenue,
       revenue_rejected revenue = false ∧ revenue_kept revenue = false
       ↔ ∃ v, revenue = Some v ∧ v < 0).
Proof.
  split; [intros *; apply collect_rows_admitted|].
  split; [by vm_compute|].
  split; [|split; [done|split; [done|apply admitted_then_dropped]]].
  rewrite build_quarterly_unfold. cbv zeta.
  rewrite <- list_fmap_compose.
  rewrite (list_fmap_ext _ (λ p, (r_fq (p_row p), col (p_row p) "revenue"))).
  - by vm_compute.
  - intros i p _. unfold compose.
    by rewrite fillna_row_revenue by apply revenue_not_numeric_no_rev.
Qed.

(** ** The scenario of the specification

    Revenue of 100, 250, 420 and 600 to date and net income of 10, 22, 30
    and 50 give the quarterly rows below; the earnings growth of the second
    quarter is (12 - 10) / 10. *)
Example end_to_end_scenario :
  (λ p, (r_fq (p_row p), col (p_row p) "revenue", col (p_row p) "net_income",
         p_derived p)) <$>
    build_quarterly sample_ticker_map sample_company_facts (λ _, [])
                    ["ACME"] 2020 2020 true
  = [("Q1", Some 100, Some 10,
      [("sales_growth", Fin 0); ("earning_growth", Fin 0)]);
     ("Q2", Some 150, Some 12,
      [("sales_growth", Fin (50 # 100)); ("earning_growth", Fin (2 # 10))]);
     ("Q3", Some 170, Some 8,
      [("sales_growth", Fin (20 # 150)); ("earning_growth", Fin (-4 # 12))]);
     ("Q4", Some 180, Some 20,
      [("sales_growth", Fin (10 # 170)); ("earning_growth", Fin (12 # 8))])].
Proof. by vm_compute. Qed.
